(** * The Dropbox-to-Threads posting workflow of [threads.py]

    A shallow embedding of the class [DropboxToThreadsUploader] and proofs
    about its workflow.  The program is a straight-line orchestration of
    remote calls guarded by [try]/[except]/[finally]; it is modelled as a
    computation in a small monad that

    - consults a [world] (the answers of every remote service, of the file
      system, of the clock and of the random source) which may depend on the
      whole history of calls made so far,
    - writes the calls it makes, with their outcomes, to a trace, and
    - either returns a value or raises a Python exception.

    Strings are byte strings (UTF-8), dictionaries are [gmap]s. *)

From Stdlib Require Import ZArith String Ascii List Lia.
From stdpp Require Import gmap strings list fin_maps pretty.

Set Warnings "-register-all".
Open Scope string_scope.
Open Scope list_scope.

(** ** Python values, exceptions, results *)

(** The objects [json.load] builds, together with [None] and [str]; the
    values that travel through the dictionaries of the program. *)
Inductive pyval :=
| PNone
| PBool (b : bool)
| PInt (n : Z)
| PFloat (lit : string)
| PStr (s : string)
| PList (l : list pyval)
| PDict (m : gmap string pyval).

(** An instance of [Exception]; [exn_text e] is [str(e)], what an f-string
    renders for [{e}]. *)
Record exn := Exn { exn_text : string }.

Inductive result (A : Type) :=
| Ok (a : A)
| Raise (e : exn).
Arguments Ok {A} a.
Arguments Raise {A} e.

(** [logging.INFO], [logging.WARNING], [logging.ERROR]. *)
Inductive level := INFO | WARNING | ERROR.

(** A [requests.Response]: the status, the body, what [r.json()] gives (or
    raises) and the message [raise_for_status] builds for it. *)
Record response := {
  status_code : Z;
  text : string;
  json_body : result pyval;
  http_error_msg : string;
}.

(** An entry of a folder listing. *)
Record entry := { name : string; path_lower : string }.

(** The object [dropbox.Dropbox(oauth2_access_token=...)] builds. *)
Record dropbox_client := { oauth2_access_token : pyval }.

(** ** Calls and their outcomes *)

Inductive event :=
| SendMessage (lvl : level) (msg : string)
    (* self.send_message(msg, level) was entered *)
| TelegramSend (token : string) (chat_id : option string) (txt : string)
    (out : result unit)
    (* self.telegram_bot.send_message(chat_id=..., text=...) *)
| LogRecord (lvl : level) (txt : string)
    (* self.logger.log / warning / error *)
| LoadSchedule (path : string) (out : result pyval)
    (* with open(path, 'r') as f: json.load(f) *)
| RequestsPost (url : string) (data : gmap string pyval)
    (out : result response)
    (* requests.post(url, data=data) *)
| DropboxInit (token : pyval) (out : result unit)
    (* dropbox.Dropbox(oauth2_access_token=token) *)
| ListFolder (dbx : dropbox_client) (folder : string)
    (out : result (list entry))
    (* dbx.files_list_folder(folder).entries *)
| TemporaryLink (dbx : dropbox_client) (path : string)
    (out : result (option string))
    (* dbx.files_get_temporary_link(path).link *)
| DeleteV2 (dbx : dropbox_client) (path : string) (out : result unit)
    (* dbx.files_delete_v2(path) *)
| RandomChoice (files : list entry) (out : result entry).
    (* random.choice(files) *)

Definition trace := list event.

(** Everything outside the program.  Each answer may depend on the history
    of calls, so the same call can be answered differently the second time
    (the folder is listed twice in a run). *)
Record world := {
  now_stamp : trace -> string;
    (* datetime.now(ist).strftime('%Y-%m-%d %H:%M:%S') *)
  now_weekday : trace -> string;
    (* datetime.now(ist).strftime("%A") *)
  elapsed : trace -> string;
    (* f"{time.time() - self.start_time:.1f}" *)
  json_load : trace -> string -> result pyval;
  requests_post : trace -> string -> gmap string pyval -> result response;
  dropbox_init : trace -> pyval -> result unit;
  files_list_folder : trace -> dropbox_client -> string -> result (list entry);
  files_get_temporary_link :
    trace -> dropbox_client -> string -> result (option string);
  files_delete_v2 : trace -> dropbox_client -> string -> result unit;
  telegram_send : trace -> string -> option string -> string -> result unit;
  random_below : trace -> nat -> nat;
}.

(** ** The monad

    [m w h] runs [m] in world [w] after history [h]; it gives the outcome
    and the events [m] itself issued, oldest first. *)
Definition M (A : Type) := world -> trace -> result A * trace.

Definition ret {A} (a : A) : M A := fun _ _ => (Ok a, []).

Definition raise {A} (e : exn) : M A := fun _ _ => (Raise e, []).

Definition bind {A B} (m : M A) (f : A -> M B) : M B := fun w h =>
  match m w h with
  | (Ok a, t1) => let (r, t2) := f a w (h ++ t1) in (r, t1 ++ t2)
  | (Raise e, t1) => (Raise e, t1)
  end.

(** [try: m  except Exception as e: handler e] *)
Definition try_except {A} (m : M A) (handler : exn -> M A) : M A := fun w h =>
  match m w h with
  | (Ok a, t1) => (Ok a, t1)
  | (Raise e, t1) => let (r, t2) := handler e w (h ++ t1) in (r, t1 ++ t2)
  end.

(** [try: m  finally: final].  The outcome of [m] stands unless [final]
    itself raises. *)
Definition try_finally {A} (m : M A) (final : M unit) : M A := fun w h =>
  let (r, t1) := m w h in
  match final w (h ++ t1) with
  | (Ok _, t2) => (r, t1 ++ t2)
  | (Raise e, t2) => (Raise e, t1 ++ t2)
  end.

(** A call to the outside: ask the world, record call and outcome. *)
Definition call {A} (ask : world -> trace -> result A)
    (ev : result A -> event) : M A := fun w h =>
  let out := ask w h in (out, [ev out]).

(** A read of the clock: not recorded. *)
Definition peek {A} (ask : world -> trace -> A) : M A := fun w h =>
  (Ok (ask w h), []).

Definition emit (ev : event) : M unit := fun _ _ => (Ok tt, [ev]).

Declare Scope py_scope.
Delimit Scope py_scope with py.
Notation "x <- m ;; k" := (bind m (fun x => k))
  (at level 100, m at next level, right associativity) : py_scope.
Notation "m ;; k" := (bind m (fun _ => k))
  (at level 100, right associativity) : py_scope.
Open Scope py_scope.

(** ** Strings as Python uses them here *)

Definition nl : string := String (ascii_of_nat 10) EmptyString.

(** [c.lower()] on the ASCII range.  Outside it a byte belongs to a
    multi-byte character; no such character lowers to one of the letters
    of the extensions tested below, so suffix tests are unaffected. *)
Definition lower_ascii (c : ascii) : ascii :=
  let n := nat_of_ascii c in
  if (65 <=? n)%nat && (n <=? 90)%nat then ascii_of_nat (n + 32) else c.

Fixpoint lower (s : string) : string :=
  match s with
  | EmptyString => EmptyString
  | String c s' => String (lower_ascii c) (lower s')
  end.

(** [s.endswith(suffix)] for one suffix. *)
Definition endswith1 (s suffix : string) : bool :=
  let n := String.length s in
  let k := String.length suffix in
  (k <=? n)%nat && String.eqb (substring (n - k) k s) suffix.

(** [s.endswith(suffixes)] for a tuple of suffixes. *)
Definition endswith (s : string) (suffixes : list string) : bool :=
  existsb (endswith1 s) suffixes.

(** [f"{x}"] for an attribute read from the environment. *)
Definition str_opt (o : option string) : string :=
  match o with Some s => s | None => "None" end.

Definition of_opt (o : option string) : pyval :=
  match o with Some s => PStr s | None => PNone end.

Definition type_name (v : pyval) : string :=
  match v with
  | PNone => "NoneType"
  | PBool _ => "bool"
  | PInt _ => "int"
  | PFloat _ => "float"
  | PStr _ => "str"
  | PList _ => "list"
  | PDict _ => "dict"
  end.

(** [v.get(key, dflt)]: a dictionary method; on anything else the
    attribute lookup raises [AttributeError]. *)
Definition py_get (v : pyval) (key : string) (dflt : pyval) : M pyval :=
  match v with
  | PDict m => ret (default dflt (m !! key))
  | _ => raise (Exn ("'" +:+ type_name v +:+ "' object has no attribute 'get'"))
  end.

(** ** The uploader object

    The attributes [__init__] sets; none is assigned afterwards.  The bot
    object exists exactly when a token does. *)
Record uploader := {
  account_name : string;
  schedule_file : string;
  threads_access_token : option string;
  threads_user_id : option string;
  dropbox_app_key : option string;
  dropbox_app_secret : option string;
  dropbox_refresh_token : option string;
  dropbox_folder : string;
  telegram_bot : option string;
  telegram_chat_id : option string;
}.

Definition script_name (u : uploader) : string :=
  account_name u +:+ "_threads_post.py".

Definition account_key (u : uploader) : string := account_name u.

Definition DROPBOX_TOKEN_URL : string := "https://api.dropbox.com/oauth2/token".
Definition THREADS_API_BASE : string := "https://graph.threads.net/v1.0".

(** ** The methods *)

Definition logger_log (lvl : level) (txt : string) : M unit :=
  emit (LogRecord lvl txt).

Definition full_msg (u : uploader) (msg : string) : string :=
  "[" +:+ account_name u +:+ "] [" +:+ script_name u +:+ "]" +:+ nl +:+ msg.

Definition send_message (u : uploader) (msg : string) (lvl : level) : M unit :=
  emit (SendMessage lvl msg) ;;
  try_except
    (match telegram_bot u with
     | Some bot =>
         call (fun w h => telegram_send w h bot (telegram_chat_id u) (full_msg u msg))
              (TelegramSend bot (telegram_chat_id u) (full_msg u msg))
     | None =>
         logger_log WARNING
           "Telegram bot is not configured. Message not sent to Telegram."
     end ;;
     logger_log lvl (full_msg u msg))
    (fun e => logger_log ERROR ("Telegram send error: " +:+ exn_text e)).

Definition refresh_data (u : uploader) : gmap string pyval :=
  <["client_secret" := of_opt (dropbox_app_secret u)]>
  (<["client_id" := of_opt (dropbox_app_key u)]>
  (<["refresh_token" := of_opt (dropbox_refresh_token u)]>
  (<["grant_type" := PStr "refresh_token"]> ∅))).

(** [r.raise_for_status()] *)
Definition raise_for_status (r : response) : M unit :=
  if (400 <=? status_code r)%Z && (status_code r <? 600)%Z
  then raise (Exn (http_error_msg r))
  else ret tt.

(** [r.json()] *)
Definition response_json (r : response) : M pyval := fun _ _ =>
  (json_body r, []).

Definition requests_post_call (url : string) (data : gmap string pyval)
    : M response :=
  call (fun w h => requests_post w h url data) (RequestsPost url data).

Definition refresh_dropbox_token (u : uploader) : M pyval :=
  r <- requests_post_call DROPBOX_TOKEN_URL (refresh_data u) ;;
  raise_for_status r ;;
  j <- response_json r ;;
  py_get j "access_token" PNone.

Definition valid_exts : list string :=
  [".mp4"; ".mov"; ".jpg"; ".jpeg"; ".png"].

(** The condition of the comprehension in [list_dropbox_files]. *)
Definition eligible (f : entry) : bool :=
  endswith (lower (name f)) valid_exts.

Definition list_dropbox_files (u : uploader) (dbx : dropbox_client)
    : M (list entry) :=
  files <- call (fun w h => files_list_folder w h dbx (dropbox_folder u))
                (ListFolder dbx (dropbox_folder u)) ;;
  ret (List.filter eligible files).

Definition default_caption (u : uploader) : string :=
  "✨ #" +:+ account_name u +:+ " ✨".

Definition get_caption_from_config (u : uploader) : M pyval :=
  try_except
    (config <- call (fun w h => json_load w h (schedule_file u))
                    (LoadSchedule (schedule_file u)) ;;
     today <- peek now_weekday ;;
     by_account <- py_get config (account_key u) (PDict ∅) ;;
     by_day <- py_get by_account today (PDict ∅) ;;
     py_get by_day "caption" (PStr (default_caption u)))
    (fun e =>
       logger_log WARNING
         ("Could not load caption from config: " +:+ exn_text e) ;;
       ret (PStr (default_caption u))).

Definition post_url (u : uploader) : string :=
  THREADS_API_BASE +:+ "/" +:+ str_opt (threads_user_id u) +:+ "/threads".

(** Truth value of the temporary link: [None] and [""] are false. *)
Definition truthy (link : option string) : bool :=
  match link with
  | Some s => negb (String.eqb s "")
  | None => false
  end.

Definition media_type_of (file : entry) : string :=
  if endswith (lower (name file)) [".mp4"; ".mov"] then "VIDEO" else "IMAGE".

Definition post_data (u : uploader) (file : entry) (caption : pyval)
    (temp_link : option string) : gmap string pyval :=
  let data :=
    <["text" := caption]>
    (<["access_token" := of_opt (threads_access_token u)]> ∅) in
  if truthy temp_link then
    if String.eqb (media_type_of file) "VIDEO" then
      <["media_type" := PStr "VIDEO"]>
      (<["video_url" := of_opt temp_link]> data)
    else
      <["media_type" := PStr "IMAGE"]>
      (<["image_url" := of_opt temp_link]> data)
  else
    <["media_type" := PStr "TEXT_POST"]> data.

Definition post_to_threads (u : uploader) (dbx : dropbox_client)
    (file : entry) (caption : pyval) : M bool :=
  temp_link <- call (fun w h => files_get_temporary_link w h dbx (path_lower file))
                    (TemporaryLink dbx (path_lower file)) ;;
  files <- list_dropbox_files u dbx ;;
  let total_files := length files in
  send_message u
    ("🚀 Uploading to Threads: " +:+ name file +:+ nl +:+
     "📐 Type: " +:+ media_type_of file +:+ nl +:+
     "📦 Remaining: " +:+ pretty total_files) INFO ;;
  res <- requests_post_call (post_url u) (post_data u file caption temp_link) ;;
  if (status_code res =? 200)%Z then
    send_message u ("✅ Successfully posted to Threads: " +:+ name file) INFO ;;
    ret true
  else
    send_message u
      ("❌ Threads post failed: " +:+ name file +:+ nl +:+ text res) ERROR ;;
    ret false.

Definition dropbox_Dropbox (token : pyval) : M dropbox_client :=
  call (fun w h => dropbox_init w h token) (DropboxInit token) ;;
  ret {| oauth2_access_token := token |}.

Definition authenticate_dropbox (u : uploader) : M dropbox_client :=
  access_token <- refresh_dropbox_token u ;;
  dropbox_Dropbox access_token.

(** [random.choice(files)]: an index below the length; an empty sequence
    raises [IndexError]. *)
Definition random_choice (files : list entry) : M entry :=
  call (fun w h =>
          match files !! (random_below w h (length files) mod length files)%nat with
          | Some f => Ok f
          | None => Raise (Exn "Cannot choose from an empty sequence")
          end)
       (RandomChoice files).

Definition run (u : uploader) : M unit :=
  stamp <- peek now_stamp ;;
  send_message u ("📡 Threads Run started at: " +:+ stamp) INFO ;;
  try_finally
    (try_except
       (caption <- get_caption_from_config u ;;
        dbx <- authenticate_dropbox u ;;
        files <- list_dropbox_files u dbx ;;
        match files with
        | [] => send_message u "📭 No files found in Dropbox folder." INFO
        | _ :: _ =>
            file <- random_choice files ;;
            success <- post_to_threads u dbx file caption ;;
            try_except
              (call (fun w h => files_delete_v2 w h dbx (path_lower file))
                    (DeleteV2 dbx (path_lower file)) ;;
               send_message u
                 ("🗑️ Deleted file after attempt: " +:+ name file) INFO)
              (fun e =>
                 send_message u
                   ("⚠️ Failed to delete file " +:+ name file +:+ ": " +:+
                    exn_text e) WARNING)
        end)
       (fun e => send_message u ("❌ Script crashed: " +:+ exn_text e) ERROR))
    (duration <- peek elapsed ;;
     send_message u ("🏁 Run complete in " +:+ duration +:+ " seconds") INFO).

(** ** Reading a trace *)

(** The messages handed to [send_message], oldest first. *)
Definition notifications (t : trace) : list (level * string) :=
  omap (fun ev => match ev with
                  | SendMessage lvl msg => Some (lvl, msg)
                  | _ => None
                  end) t.

(** The texts handed to the Telegram bot. *)
Definition delivered (t : trace) : list string :=
  omap (fun ev => match ev with
                  | TelegramSend _ _ txt _ => Some txt
                  | _ => None
                  end) t.

(** The records written to the local log. *)
Definition logged (t : trace) : list (level * string) :=
  omap (fun ev => match ev with
                  | LogRecord lvl txt => Some (lvl, txt)
                  | _ => None
                  end) t.

(** The [requests.post] calls made to [url]: form data and outcome. *)
Definition http_calls (url : string) (t : trace)
    : list (gmap string pyval * result response) :=
  omap (fun ev => match ev with
                  | RequestsPost url' data out =>
                      if String.eqb url' url then Some (data, out) else None
                  | _ => None
                  end) t.

(** The publish calls of uploader [u] and the token-refresh calls. *)
Definition publish_calls (u : uploader) (t : trace) :=
  http_calls (post_url u) t.

Definition token_calls (t : trace) := http_calls DROPBOX_TOKEN_URL t.

(** The tokens handed to the [dropbox.Dropbox] constructor. *)
Definition sessions (t : trace) : list pyval :=
  omap (fun ev => match ev with
                  | DropboxInit token _ => Some token
                  | _ => None
                  end) t.

(** The outcomes of the folder listings. *)
Definition listings (t : trace) : list (result (list entry)) :=
  omap (fun ev => match ev with
                  | ListFolder _ _ out => Some out
                  | _ => None
                  end) t.

(** The outcomes of the temporary-link fetches. *)
Definition link_calls (t : trace) : list (string * result (option string)) :=
  omap (fun ev => match ev with
                  | TemporaryLink _ path out => Some (path, out)
                  | _ => None
                  end) t.

(** The paths handed to [files_delete_v2]. *)
Definition delete_calls (t : trace) : list string :=
  omap (fun ev => match ev with
                  | DeleteV2 _ path _ => Some path
                  | _ => None
                  end) t.

(** The files [random.choice] returned. *)
Definition choices (t : trace) : list (result entry) :=
  omap (fun ev => match ev with
                  | RandomChoice _ out => Some out
                  | _ => None
                  end) t.

(** Events that only concern the operator channel, the log and the
    schedule file. *)
Definition local_event (ev : event) : Prop :=
  match ev with
  | TelegramSend _ _ _ _ | LogRecord _ _ | LoadSchedule _ _ => True
  | _ => False
  end.

Definition quiet (t : trace) : Prop := Forall local_event t.

(** ** Vocabulary of the specification *)

(** [s.startswith(pre)] *)
Fixpoint startswith (s pre : string) {struct pre} : bool :=
  match pre, s with
  | EmptyString, _ => true
  | String a pre', String b s' => Ascii.eqb a b && startswith s' pre'
  | String _ _, EmptyString => false
  end.

Definition is_run_complete (n : level * string) : bool :=
  startswith n.2 "🏁 Run complete in ".

Definition is_crash (n : level * string) : bool :=
  startswith n.2 "❌ Script crashed: ".

(** The lowercased name ends in one of the extensions [exts]. *)
Definition has_extension (exts : list string) (s : string) : Prop :=
  exists stem ext, In ext exts /\ lower s = stem +:+ ext.

(** The caption a table defines for an account and a weekday, if any:
    [table[account][day]["caption"]] with every step a dictionary holding
    the key. *)
Definition table_caption (table : pyval) (account day : string)
    : option pyval :=
  match table with
  | PDict accounts =>
      match accounts !! account with
      | Some (PDict days) =>
          match days !! day with
          | Some (PDict slot) => slot !! "caption"
          | _ => None
          end
      | _ => None
      end
  | _ => None
  end.

(** The caption the schedule file defines for this uploader today, if the
    file can be read and parsed and defines one. *)
Definition scheduled_caption (u : uploader) (w : world) (h : trace)
    : option pyval :=
  match json_load w h (schedule_file u) with
  | Ok table =>
      table_caption table (account_key u)
        (now_weekday w (h ++ [LoadSchedule (schedule_file u) (Ok table)]))
  | Raise _ => None
  end.

(** ** Sample runs *)

Definition inkwisp : uploader := {|
  account_name := "inkwisp";
  schedule_file := "caption/config.json";
  threads_access_token := Some "threads-token";
  threads_user_id := Some "1002";
  dropbox_app_key := Some "app-key";
  dropbox_app_secret := Some "app-secret";
  dropbox_refresh_token := Some "refresh-token";
  dropbox_folder := "/threads_2";
  telegram_bot := None;
  telegram_chat_id := None;
|}.

Definition inkwisp_with_bot : uploader := {|
  account_name := "inkwisp";
  schedule_file := "caption/config.json";
  threads_access_token := Some "threads-token";
  threads_user_id := Some "1002";
  dropbox_app_key := Some "app-key";
  dropbox_app_secret := Some "app-secret";
  dropbox_refresh_token := Some "refresh-token";
  dropbox_folder := "/threads_2";
  telegram_bot := Some "bot-token";
  telegram_chat_id := Some "7";
|}.

Definition clip_mp4 : entry := {| name := "clip.mp4"; path_lower := "/threads_2/clip.mp4" |}.
Definition shot_png : entry := {| name := "shot.png"; path_lower := "/threads_2/shot.png" |}.
Definition a_MP4 : entry := {| name := "a.MP4"; path_lower := "/threads_2/a.mp4" |}.
Definition b_PNG : entry := {| name := "b.PNG"; path_lower := "/threads_2/b.png" |}.
Definition c_txt : entry := {| name := "c.txt"; path_lower := "/threads_2/c.txt" |}.

Definition monday_table : pyval :=
  PDict {[ "inkwisp" :=
    PDict {[ "Monday" := PDict {[ "caption" := PStr "Start of the week" ]} ]} ]}.

Definition http_response (status : Z) (body : string) (parsed : result pyval)
    : response :=
  {| status_code := status; text := body; json_body := parsed;
     http_error_msg := "HTTP error for url" |}.

Definition token_granted : response :=
  http_response 200 "{...}" (Ok (PDict {[ "access_token" := PStr "sl.token" ]})).

Definition token_missing : response :=
  http_response 200 "{}" (Ok (PDict ∅)).

Definition token_not_modified : response :=
  http_response 304 "{...}" (Ok (PDict {[ "access_token" := PStr "sl.token" ]})).

Definition token_denied : response :=
  http_response 401 "invalid_grant" (Raise (Exn "Expecting value")).

Definition published : response :=
  http_response 200 "{'id': '1'}" (Ok (PDict ∅)).

Definition rejected : response :=
  http_response 400 "{'error': 'bad media'}" (Ok (PDict ∅)).

(** The answers of a world that answers every call of a kind the same way. *)
Record script := {
  on_schedule : result pyval;
  on_token : result response;
  on_listing : result (list entry);
  on_link : result (option string);
  on_publish : result response;
  on_delete : result unit;
  on_telegram : result unit;
}.

Definition world_of (s : script) : world := {|
  now_stamp := fun _ => "2024-05-06 09:00:00";
  now_weekday := fun _ => "Monday";
  elapsed := fun _ => "2.5";
  json_load := fun _ _ => on_schedule s;
  requests_post := fun _ url _ =>
    if String.eqb url DROPBOX_TOKEN_URL then on_token s else on_publish s;
  dropbox_init := fun _ _ => Ok tt;
  files_list_folder := fun _ _ _ => on_listing s;
  files_get_temporary_link := fun _ _ _ => on_link s;
  files_delete_v2 := fun _ _ _ => on_delete s;
  telegram_send := fun _ _ _ _ => on_telegram s;
  random_below := fun _ _ => 0%nat;
|}.

Definition happy : script := {|
  on_schedule := Ok monday_table;
  on_token := Ok token_granted;
  on_listing := Ok [clip_mp4; shot_png];
  on_link := Ok (Some "https://dl.example/clip");
  on_publish := Ok published;
  on_delete := Ok tt;
  on_telegram := Ok tt;
|}.

Definition with_listing (l : result (list entry)) (s : script) : script :=
  {| on_schedule := on_schedule s; on_token := on_token s; on_listing := l;
     on_link := on_link s; on_publish := on_publish s;
     on_delete := on_delete s; on_telegram := on_telegram s |}.

Definition with_token (t : result response) (s : script) : script :=
  {| on_schedule := on_schedule s; on_token := t; on_listing := on_listing s;
     on_link := on_link s; on_publish := on_publish s;
     on_delete := on_delete s; on_telegram := on_telegram s |}.

Definition with_link (l : result (option string)) (s : script) : script :=
  {| on_schedule := on_schedule s; on_token := on_token s;
     on_listing := on_listing s; on_link := l; on_publish := on_publish s;
     on_delete := on_delete s; on_telegram := on_telegram s |}.

Definition with_publish (p : result response) (s : script) : script :=
  {| on_schedule := on_schedule s; on_token := on_token s;
     on_listing := on_listing s; on_link := on_link s; on_publish := p;
     on_delete := on_delete s; on_telegram := on_telegram s |}.

Definition with_telegram (t : result unit) (s : script) : script :=
  {| on_schedule := on_schedule s; on_token := on_token s;
     on_listing := on_listing s; on_link := on_link s;
     on_publish := on_publish s; on_delete := on_delete s; on_telegram := t |}.

Definition sample_client : dropbox_client :=
  {| oauth2_access_token := PStr "sl.token" |}.

(** A trace without its local events: the calls to the remote services
    and the notifications, in order. *)
Definition skeleton (t : trace) : trace :=
  omap (fun ev => match ev with
                  | TelegramSend _ _ _ _ | LogRecord _ _ | LoadSchedule _ _ =>
                      None
                  | _ => Some ev
                  end) t.

(** ** The rest of the module: construction and the driver *)

(** The delete calls with their outcomes. *)
Definition delete_outcomes (t : trace) : list (string * result unit) :=
  omap (fun ev => match ev with
                  | DeleteV2 _ path out => Some (path, out)
                  | _ => None
                  end) t.

(** The [dropbox.Dropbox] constructions with their outcomes. *)
Definition session_outcomes (t : trace) : list (pyval * result unit) :=
  omap (fun ev => match ev with
                  | DropboxInit token out => Some (token, out)
                  | _ => None
                  end) t.

(** The keyword arguments of [DropboxToThreadsUploader(...)]; the last
    three have defaults. *)
Record account := {
  arg_account_name : string;
  arg_threads_user_id : option string;
  arg_threads_access_token : option string;
  arg_dropbox_app_key : option string;
  arg_dropbox_app_secret : option string;
  arg_dropbox_refresh_token : option string;
  arg_dropbox_folder : string;
  arg_telegram_bot_token : option string;
  arg_telegram_chat_id : option string;
  arg_schedule_file : string;
}.

(** What construction depends on: the environment variables, [str.strip]
    and the [telegram.Bot] constructor, which may refuse a token. *)
Record platform := {
  getenv : string -> option string;
  strip : string -> string;
  telegram_Bot : string -> result unit;
}.

(** [a or b] *)
Definition py_or (a b : option string) : option string :=
  if truthy a then a else b.

(** [__init__].  The bot is constructed exactly when a token is found;
    [pytz.timezone], the logging setup and [time.time] are taken not to
    raise. *)
Definition init (p : platform) (a : account) : result uploader :=
  let access_token :=
    match arg_threads_access_token a with
    | Some s => if truthy (Some s) then Some (strip p s) else None
    | None => None
    end in
  let bot_token :=
    py_or (arg_telegram_bot_token a) (getenv p "TELEGRAM_BOT_TOKEN") in
  let chat_id :=
    py_or (arg_telegram_chat_id a) (getenv p "TELEGRAM_CHAT_ID") in
  let self (bot : option string) := {|
    account_name := arg_account_name a;
    schedule_file := arg_schedule_file a;
    threads_access_token := access_token;
    threads_user_id := arg_threads_user_id a;
    dropbox_app_key := arg_dropbox_app_key a;
    dropbox_app_secret := arg_dropbox_app_secret a;
    dropbox_refresh_token := arg_dropbox_refresh_token a;
    dropbox_folder := arg_dropbox_folder a;
    telegram_bot := bot;
    telegram_chat_id := chat_id;
  |} in
  match bot_token with
  | Some token =>
      match telegram_Bot p token with
      | Ok _ => Ok (self (Some token))
      | Raise e => Raise e
      end
  | None => Ok (self None)
  end.

Definition account_of (p : platform) (account_name : string) (n : string)
    (folder : string) : account := {|
  arg_account_name := account_name;
  arg_threads_user_id := getenv p ("THREADS_USER_ID_" +:+ n);
  arg_threads_access_token := getenv p ("THREADS_ACCESS_TOKEN_" +:+ n);
  arg_dropbox_app_key := getenv p ("DROPBOX_APP_KEY_" +:+ n);
  arg_dropbox_app_secret := getenv p ("DROPBOX_APP_SECRET_" +:+ n);
  arg_dropbox_refresh_token := getenv p ("DROPBOX_REFRESH_TOKEN_" +:+ n);
  arg_dropbox_folder := folder;
  arg_telegram_bot_token := None;
  arg_telegram_chat_id := None;
  arg_schedule_file := "caption/config.json";
|}.

Definition ACCOUNTS (p : platform) : list account :=
  [ account_of p "eclipsed.by.you" "1" "/Threads_1";
    account_of p "inkwisp" "2" "/threads_2";
    account_of p "ink_wisps" "3" "/Threads_3" ].

(** The loop of the main block: for each account, construct the uploader
    from the account's keyword arguments and call [run]. *)
Fixpoint run_accounts (p : platform) (accounts : list account) : M unit :=
  match accounts with
  | [] => ret tt
  | a :: rest =>
      match init p a with
      | Ok uploader => run uploader ;; run_accounts p rest
      | Raise e => raise e
      end
  end.

Definition main (p : platform) : M unit := run_accounts p (ACCOUNTS p).

(** An environment that sets the credentials of account 2 only. *)
Definition sample_env (name : string) : option string :=
  if String.eqb name "THREADS_USER_ID_2" then Some "1002"
  else if String.eqb name "THREADS_ACCESS_TOKEN_2" then Some "threads-token"
  else if String.eqb name "DROPBOX_REFRESH_TOKEN_2" then Some "refresh-token"
  else None.

Definition sample_platform : platform := {|
  getenv := sample_env;
  strip := fun s => s;
  telegram_Bot := fun _ => Ok tt;
|}.

Definition bot_env (name : string) : option string :=
  if String.eqb name "TELEGRAM_BOT_TOKEN" then Some "bad token"
  else sample_env name.

Definition refusing_platform : platform := {|
  getenv := bot_env;
  strip := fun s => s;
  telegram_Bot := fun _ => Raise (Exn "Invalid token");
|}.

Definition with_schedule (t : result pyval) (s : script) : script :=
  {| on_schedule := t; on_token := on_token s; on_listing := on_listing s;
     on_link := on_link s; on_publish := on_publish s;
     on_delete := on_delete s; on_telegram := on_telegram s |}.

Definition with_delete (d : result unit) (s : script) : script :=
  {| on_schedule := on_schedule s; on_token := on_token s;
     on_listing := on_listing s; on_link := on_link s;
     on_publish := on_publish s; on_delete := d;
     on_telegram := on_telegram s |}.

(** The rule for the form fields of a post request, given the file, the
    caption and the temporary link that was fetched. *)
Definition follows_media_rule (file : entry) (caption : pyval)
    (link : option string) (data : gmap string pyval) : Prop :=
  data !! "text" = Some caption /\
  (forall l, link = Some l -> l <> "" ->
     has_extension [".mp4"; ".mov"] (name file) ->
     data !! "media_type" = Some (PStr "VIDEO") /\
     data !! "video_url" = Some (PStr l) /\ data !! "image_url" = None) /\
  (forall l, link = Some l -> l <> "" ->
     ~ has_extension [".mp4"; ".mov"] (name file) ->
     data !! "media_type" = Some (PStr "IMAGE") /\
     data !! "image_url" = Some (PStr l) /\ data !! "video_url" = None) /\
  (link = None \/ link = Some "" ->
     data !! "media_type" = Some (PStr "TEXT_POST") /\
     dom data = {[ "access_token"; "text"; "media_type" ]}).

(** A schedule whose caption for Monday is the JSON value null. *)
Definition null_caption_table : pyval :=
  PDict {[ "inkwisp" :=
    PDict {[ "Monday" := PDict {[ "caption" := PNone ]} ]} ]}.

(** The outcome of the caption resolution of a run: [run] calls
    [get_caption_from_config] right after its first notification. *)
Definition run_caption (u : uploader) (w : world) (h : trace) : result pyval :=
  (get_caption_from_config u w
     (h ++ (send_message u
              ("📡 Threads Run started at: " +:+ now_stamp w h) INFO w h).2)).1.

(** [spine t s]: [s] is what is left of [t] without its local events.
    A relation that follows the shape of the traces the methods build, so
    that the skeleton of a path is found by proof search. *)
Inductive spine : trace -> trace -> Prop :=
| spine_nil : spine [] []
| spine_quiet eff : quiet eff -> spine eff []
| spine_keep ev t s : skeleton [ev] = [ev] -> spine t s -> spine (ev :: t) (ev :: s)
| spine_app t1 t2 s1 s2 : spine t1 s1 -> spine t2 s2 -> spine (t1 ++ t2) (s1 ++ s2).

(** ** Facts about traces *)

Lemma omap_quiet {A} (f : event -> option A) (t : trace) :
  (forall ev, local_event ev -> f ev = None) -> quiet t -> omap f t = [].
Proof.
  intros Hf Hq. induction Hq as [|ev t Hev _ IH]; [reflexivity|].
  cbn. rewrite (Hf ev Hev). exact IH.
Qed.

Lemma omap_skeleton {A} (f : event -> option A) (t : trace) :
  (forall ev, local_event ev -> f ev = None) ->
  omap f (skeleton t) = omap f t.
Proof.
  intros Hf. unfold skeleton. induction t as [|ev t IH]; [reflexivity|].
  destruct ev; cbn [omap list_omap]; rewrite IH; try reflexivity;
    by rewrite Hf.
Qed.

Lemma notifications_skeleton t : notifications (skeleton t) = notifications t.
Proof. apply omap_skeleton. by intros []. Qed.

Lemma http_calls_skeleton url t :
  http_calls url (skeleton t) = http_calls url t.
Proof. apply omap_skeleton. by intros []. Qed.

Lemma sessions_skeleton t : sessions (skeleton t) = sessions t.
Proof. apply omap_skeleton. by intros []. Qed.

Lemma listings_skeleton t : listings (skeleton t) = listings t.
Proof. apply omap_skeleton. by intros []. Qed.

Lemma link_calls_skeleton t : link_calls (skeleton t) = link_calls t.
Proof. apply omap_skeleton. by intros []. Qed.

Lemma delete_calls_skeleton t : delete_calls (skeleton t) = delete_calls t.
Proof. apply omap_skeleton. by intros []. Qed.

Lemma choices_skeleton t : choices (skeleton t) = choices t.
Proof. apply omap_skeleton. by intros []. Qed.

(** ** [send_message] *)

(** What one call of [send_message] does, in each of its three ways. *)
Lemma send_message_cases u msg lvl w h :
  send_message u msg lvl w h =
    (Ok tt,
     SendMessage lvl msg ::
     match telegram_bot u with
     | None =>
         [LogRecord WARNING
            "Telegram bot is not configured. Message not sent to Telegram.";
          LogRecord lvl (full_msg u msg)]
     | Some bot =>
         let out := telegram_send w (h ++ [SendMessage lvl msg]) bot
                      (telegram_chat_id u) (full_msg u msg) in
         TelegramSend bot (telegram_chat_id u) (full_msg u msg) out ::
         match out with
         | Ok _ => [LogRecord lvl (full_msg u msg)]
         | Raise e => [LogRecord ERROR ("Telegram send error: " +:+ exn_text e)]
         end
     end).
Proof.
  unfold send_message, bind, try_except, call, emit, logger_log.
  destruct (telegram_bot u) as [bot|]; [|reflexivity].
  cbn. destruct (telegram_send _ _ _ _ _) as [[]|e]; reflexivity.
Qed.

Lemma send_message_run u msg lvl w h :
  exists eff, send_message u msg lvl w h = (Ok tt, SendMessage lvl msg :: eff)
              /\ quiet eff.
Proof.
  rewrite send_message_cases. eexists; split; [reflexivity|].
  destruct (telegram_bot u).
  - cbn. destruct (telegram_send _ _ _ _ _); repeat constructor.
  - repeat constructor.
Qed.

(** ** [get_caption_from_config] *)

Local Ltac caption_done :=
  cbn; rewrite ?lookup_empty; cbn; rewrite ?lookup_empty; cbn;
  eexists; split; [reflexivity|repeat constructor].

Lemma get_caption_from_config_run u w h :
  exists eff,
    get_caption_from_config u w h =
      (Ok (default (PStr (default_caption u)) (scheduled_caption u w h)), eff)
    /\ quiet eff.
Proof.
  unfold get_caption_from_config, scheduled_caption, table_caption,
    try_except, bind, call, peek.
  destruct (json_load w h (schedule_file u)) as [table|e]; cbn;
    [|caption_done].
  destruct table as [| | | | | |accounts]; try caption_done.
  cbn. destruct (accounts !! account_key u) as [by_account|];
    [|caption_done].
  destruct by_account as [| | | | | |days]; try caption_done.
  cbn. destruct (days !! _) as [by_day|]; [|caption_done].
  destruct by_day; caption_done.
Qed.

(** ** Symbolic execution of the methods *)

Local Opaque send_message get_caption_from_config.
Local Arguments Nat.modulo : simpl never.

Ltac exec_step :=
  match goal with
  | |- context [send_message ?u ?m ?l ?w ?h] =>
      let eff := fresh "eff" in
      let Q := fresh "Q" in
      destruct (send_message_run u m l w h) as (eff & -> & Q)
  | |- context [get_caption_from_config ?u ?w ?h] =>
      let eff := fresh "eff" in
      let Q := fresh "Q" in
      destruct (get_caption_from_config_run u w h) as (eff & -> & Q)
  | |- context [match ?x with _ => _ end] =>
      lazymatch x with
      | context [match _ with _ => _ end] => fail
      | _ => destruct x eqn:?
      end
  end; cbn.

Ltac exec :=
  unfold run, post_to_threads, authenticate_dropbox, dropbox_Dropbox,
    refresh_dropbox_token, list_dropbox_files, random_choice,
    requests_post_call, raise_for_status, response_json, py_get,
    bind, try_except, try_finally, call, peek, ret, raise;
  cbn; repeat exec_step.

Lemma token_url_not_post_url u :
  String.eqb DROPBOX_TOKEN_URL (post_url u) = false.
Proof. reflexivity. Qed.

Lemma post_url_not_token_url u :
  String.eqb (post_url u) DROPBOX_TOKEN_URL = false.
Proof. reflexivity. Qed.

(** The skeleton of the trace [T] an execution path produced. *)
Ltac skeleton_in E :=
  unfold skeleton in E;
  repeat first
    [ rewrite omap_app in E
    | match type of E with
      | context [omap ?f ?t] =>
          match goal with
          | Q : quiet t |- _ =>
              rewrite (omap_quiet f t ltac:(by intros []) Q) in E
          end
      end
    | progress cbn [omap list_omap app] in E ];
  match type of E with
  | _ = omap _ ?evs => fold (skeleton evs) in E
  end.

Ltac read_skeleton :=
  unfold notifications, publish_calls, token_calls, http_calls, sessions,
    listings, link_calls, delete_calls, choices;
  cbn [omap list_omap];
  rewrite ?token_url_not_post_url, ?post_url_not_token_url, ?String.eqb_refl;
  cbn [omap list_omap].

(** At the end of a path the goal is [(r, T) = (res, evs) -> P evs] with
    [P] reading [evs] through the projections. *)
Ltac leaf :=
  let E := fresh "E" in
  intros [= <- E];
  apply (f_equal skeleton) in E; skeleton_in E;
  match type of E with
  | _ = skeleton ?evs =>
      try rewrite <- (notifications_skeleton evs);
      try rewrite <- (sessions_skeleton evs);
      try rewrite <- (listings_skeleton evs);
      try rewrite <- (link_calls_skeleton evs);
      try rewrite <- (delete_calls_skeleton evs);
      try rewrite <- (choices_skeleton evs);
      unfold publish_calls, token_calls;
      repeat match goal with
             | |- context [http_calls ?url evs] =>
                 rewrite <- (http_calls_skeleton url evs)
             end
  end;
  rewrite <- E; clear E; read_skeleton.


Ltac break_hyps :=
  repeat match goal with
         | H : exists _, _ |- _ => destruct H
         | H : _ /\ _ |- _ => destruct H
         end;
  simplify_eq.

(** ** Suffixes *)

Lemma substring_all (s : string) : substring 0 (String.length s) s = s.
Proof. induction s as [|c s IH]; [reflexivity|]. cbn. by rewrite IH. Qed.

Lemma substring_skip (a b : string) :
  substring (String.length a) (String.length b) (a +:+ b) = b.
Proof. induction a as [|c a IH]; [apply substring_all|exact IH]. Qed.

Lemma substring_split (s : string) (i : nat) :
  (i <= String.length s)%nat ->
  s = substring 0 i s +:+ substring i (String.length s - i) s.
Proof.
  revert i. induction s as [|c s IH]; intros i Hi.
  - destruct i; [reflexivity|cbn in Hi; lia].
  - destruct i as [|i].
    + rewrite Nat.sub_0_r, substring_all. reflexivity.
    + change (String c s = String c
                (substring 0 i s +:+ substring i (String.length s - i) s)).
      f_equal. apply IH. cbn in Hi. lia.
Qed.

Lemma length_append (a b : string) :
  String.length (a +:+ b) = (String.length a + String.length b)%nat.
Proof.
  induction a as [|c a IH]; [reflexivity|].
  change (S (String.length (a +:+ b))
          = S (String.length a + String.length b)). by rewrite IH.
Qed.

Lemma append_assoc (a b c : string) : (a +:+ b) +:+ c = a +:+ (b +:+ c).
Proof.
  induction a as [|x a IH]; [reflexivity|].
  change (String x ((a +:+ b) +:+ c) = String x (a +:+ (b +:+ c))).
  by rewrite IH.
Qed.

Lemma endswith1_spec (s suffix : string) :
  endswith1 s suffix = true <-> exists stem, s = stem +:+ suffix.
Proof.
  unfold endswith1. rewrite andb_true_iff, Nat.leb_le, String.eqb_eq. split.
  - intros [Hle Hsub].
    exists (substring 0 (String.length s - String.length suffix) s).
    pose proof (substring_split s (String.length s - String.length suffix)
                  ltac:(lia)) as Hs.
    replace (String.length s - (String.length s - String.length suffix))%nat
      with (String.length suffix) in Hs by lia.
    by rewrite Hsub in Hs.
  - intros [stem ->]. rewrite length_append. split; [lia|].
    replace (String.length stem + String.length suffix - String.length suffix)%nat
      with (String.length stem) by lia.
    apply substring_skip.
Qed.

Lemma endswith_spec (s : string) (exts : list string) :
  endswith s exts = true <->
  exists stem ext, In ext exts /\ s = stem +:+ ext.
Proof.
  unfold endswith. rewrite existsb_exists. split.
  - intros (ext & Hin & H). apply endswith1_spec in H as [stem ->]. eauto.
  - intros (stem & ext & Hin & ->). exists ext. split; [done|].
    apply endswith1_spec. eauto.
Qed.

Lemma eligible_spec (f : entry) :
  eligible f = true <-> has_extension valid_exts (name f).
Proof. apply endswith_spec. Qed.

#[local] Instance has_extension_dec exts s : Decision (has_extension exts s).
Proof.
  destruct (endswith (lower s) exts) eqn:E.
  - left. by apply endswith_spec.
  - right. intros H. apply endswith_spec in H. congruence.
Defined.

Lemma filter_eligible (entries : list entry) :
  List.filter eligible entries
  = filter (fun f => has_extension valid_exts (name f)) entries.
Proof.
  induction entries as [|f l IH]; [reflexivity|].
  rewrite filter_cons. cbn [List.filter]. destruct (eligible f) eqn:E.
  - rewrite decide_True by (by apply eligible_spec). by rewrite IH.
  - rewrite decide_False; [exact IH|].
    intros H. apply eligible_spec in H. congruence.
Qed.

(** ** The claims *)

(** C6. The eligible-file filter: when the folder listing returns
    [entries], [list_dropbox_files] returns, in the order of the listing,
    exactly those entries whose lowercased name ends in one of .mp4, .mov,
    .jpg, .jpeg, .png; a listing of a.MP4, b.PNG, c.txt gives a.MP4, b.PNG. *)
Theorem list_dropbox_files_keeps_media u dbx w h entries :
  files_list_folder w h dbx (dropbox_folder u) = Ok entries ->
  (list_dropbox_files u dbx w h).1
    = Ok (filter (fun f => has_extension [".mp4"; ".mov"; ".jpg"; ".jpeg"; ".png"]
                                         (name f)) entries)
  /\ (entries = [a_MP4; b_PNG; c_txt] ->
      (list_dropbox_files u dbx w h).1 = Ok [a_MP4; b_PNG]).
Proof.
  intros H. unfold list_dropbox_files, bind, call, ret. rewrite H. cbn.
  split.
  - f_equal. apply filter_eligible.
  - intros ->. reflexivity.
Qed.

(** The listing a.MP4, b.PNG, c.txt of the claim. *)
Lemma list_dropbox_files_keeps_media_witness :
  (list_dropbox_files inkwisp sample_client
     (world_of (with_listing (Ok [a_MP4; b_PNG; c_txt]) happy)) []).1
  = Ok [a_MP4; b_PNG].
Proof.
  apply (list_dropbox_files_keeps_media inkwisp sample_client
           (world_of (with_listing (Ok [a_MP4; b_PNG; c_txt]) happy)) []
           [a_MP4; b_PNG; c_txt]); reflexivity.
Defined.

(** C5 (as the code has it). Caption resolution never raises.  It returns
    the value the schedule file stores as the caption of the account for
    today's weekday when there is one, as it is: the string when it is a
    string, and any other JSON value (null, a number) unchanged.  In every
    other case (file unreadable or malformed, a key missing, a level that
    is not a dictionary) it returns the default caption, which contains the
    account name. *)
Theorem get_caption_from_config_resolves u w h :
  exists eff,
    get_caption_from_config u w h =
      (Ok match scheduled_caption u w h with
          | Some caption => caption
          | None => PStr ("✨ #" +:+ account_name u +:+ " ✨")
          end, eff).
Proof.
  destruct (get_caption_from_config_run u w h) as (eff & E & _).
  exists eff. rewrite E. by destruct (scheduled_caption u w h).
Qed.

(** C5, the claim as stated fails: the schedule defines the caption of the
    account for today as null; the resolution returns [None], which is
    neither a string nor the default caption. *)
Lemma get_caption_from_config_null_caption :
  table_caption null_caption_table "inkwisp" "Monday" = Some PNone /\
  (get_caption_from_config inkwisp
     (world_of (with_schedule (Ok null_caption_table) happy)) []).1
  = Ok PNone.
Proof. split; vm_compute; reflexivity. Qed.

(** C9. [send_message] never raises.  Without a bot it writes a warning
    and the message to the local log; when the delivery raises, the error
    is logged; every text handed to the bot is the message prefixed with
    the account name and the script name. *)
Theorem send_message_never_raises u msg lvl w h :
  exists evs,
    send_message u msg lvl w h = (Ok tt, evs) /\
    (telegram_bot u = None ->
       delivered evs = [] /\
       logged evs =
         [(WARNING, "Telegram bot is not configured. Message not sent to Telegram.");
          (lvl, full_msg u msg)]) /\
    (forall bot e,
       telegram_bot u = Some bot ->
       telegram_send w (h ++ [SendMessage lvl msg]) bot (telegram_chat_id u)
         (full_msg u msg) = Raise e ->
       logged evs = [(ERROR, "Telegram send error: " +:+ exn_text e)]) /\
    (forall txt, In txt (delivered evs) ->
       txt = "[" +:+ account_name u +:+ "] [" +:+ account_name u +:+
             "_threads_post.py]" +:+ nl +:+ msg).
Proof.
  rewrite send_message_cases. eexists. split; [reflexivity|].
  destruct (telegram_bot u) as [bot|].
  - cbn zeta. split; [done|]. split.
    + intros ? e [= <-] ->. reflexivity.
    + intros txt. destruct (telegram_send _ _ _ _ _); cbn; intros [<-|[]];
        unfold full_msg, script_name; generalize (account_name u); intros acct;
        rewrite append_assoc; reflexivity.
  - split; [done|]. split; [done|]. intros txt [].
Qed.

(** A bot whose delivery times out: the error ends in the log. *)
Lemma send_message_never_raises_witness :
  logged (send_message inkwisp_with_bot "hello" INFO
            (world_of (with_telegram (Raise (Exn "timed out")) happy)) []).2
  = [(ERROR, "Telegram send error: timed out")].
Proof.
  destruct (send_message_never_raises inkwisp_with_bot "hello" INFO
              (world_of (with_telegram (Raise (Exn "timed out")) happy)) [])
    as (evs & E & _ & H & _).
  rewrite E. apply (H "bot-token" (Exn "timed out")); reflexivity.
Defined.

(** C10. When the token response is successful but its JSON object has no
    "access_token", [refresh_dropbox_token] returns [None] without
    raising, and [authenticate_dropbox] hands that [None] to the
    [dropbox.Dropbox] constructor. *)
Theorem refresh_without_access_token u w h r body :
  requests_post w h DROPBOX_TOKEN_URL (refresh_data u) = Ok r ->
  (200 <= status_code r < 300)%Z ->
  json_body r = Ok (PDict body) ->
  body !! "access_token" = None ->
  (refresh_dropbox_token u w h).1 = Ok PNone /\
  sessions (authenticate_dropbox u w h).2 = [PNone] /\
  forall dbx, (authenticate_dropbox u w h).1 = Ok dbx ->
              oauth2_access_token dbx = PNone.
Proof.
  intros Hpost Hstatus Hjson Hkey.
  unfold authenticate_dropbox, dropbox_Dropbox, refresh_dropbox_token,
    requests_post_call, raise_for_status, response_json, bind, call.
  rewrite Hpost.
  replace ((400 <=? status_code r)%Z && (status_code r <? 600)%Z)
    with false by (symmetry; apply andb_false_iff; lia).
  cbn. rewrite Hjson. cbn. rewrite Hkey. cbn.
  split; [reflexivity|].
  destruct (dropbox_init _ _ _); cbn; (split; [reflexivity|]);
    [by intros ? [= <-]|done].
Qed.

(** A 200 response whose body is the empty JSON object. *)
Lemma refresh_without_access_token_witness :
  (refresh_dropbox_token inkwisp
     (world_of (with_token (Ok token_missing) happy)) []).1 = Ok PNone /\
  sessions (authenticate_dropbox inkwisp
     (world_of (with_token (Ok token_missing) happy)) []).2 = [PNone].
Proof.
  destruct (refresh_without_access_token inkwisp
              (world_of (with_token (Ok token_missing) happy)) []
              token_missing ∅)
    as (H1 & H2 & _); [reflexivity|cbn; lia|reflexivity|reflexivity|].
  split; [exact H1|exact H2].
Defined.

(** C2 (as the code has it). [post_to_threads] returns [True] exactly when
    the post request came back with status 200.  A response with any other
    status gives [False], after an ERROR notification that carries the
    response body.  At most one post request is made.  An error raised by
    the post request or by the temporary-link fetch is not caught here: the
    call raises it to its caller. *)
Theorem post_to_threads_outcome u dbx file caption w h res evs :
  post_to_threads u dbx file caption w h = (res, evs) ->
  (res = Ok true <->
     exists data r, publish_calls u evs = [(data, Ok r)]
                    /\ status_code r = 200%Z) /\
  (forall data r,
     publish_calls u evs = [(data, Ok r)] -> status_code r <> 200%Z ->
     res = Ok false /\
     In (ERROR, "❌ Threads post failed: " +:+ name file +:+ nl +:+ text r)
        (notifications evs)) /\
  (length (publish_calls u evs) <= 1)%nat /\
  (forall data e, publish_calls u evs = [(data, Raise e)] -> res = Raise e) /\
  (forall path e, link_calls evs = [(path, Raise e)] -> res = Raise e).
Proof.
  exec; leaf; rewrite ?Z.eqb_eq, ?Z.eqb_neq in *.
  all: repeat split; cbn; intros; simplify_eq; try lia; eauto.
  all: by break_hyps.
Qed.

(** A post request answered with status 400. *)
Lemma post_to_threads_outcome_witness :
  (post_to_threads inkwisp sample_client clip_mp4 (PStr "hi")
     (world_of (with_publish (Ok rejected) happy)) []).1 = Ok false.
Proof.
  destruct (post_to_threads inkwisp sample_client clip_mp4 (PStr "hi")
              (world_of (with_publish (Ok rejected) happy)) [])
    as [res evs] eqn:E.
  destruct (post_to_threads_outcome _ _ _ _ _ _ _ _ E) as (_ & H & _).
  apply (H (post_data inkwisp clip_mp4 (PStr "hi")
              (Some "https://dl.example/clip")) rejected).
  - injection E as _ <-. reflexivity.
  - cbn. lia.
Defined.

(** The form fields of the post request, by temporary link and file name. *)
Lemma post_data_kind u file caption link :
  let data := post_data u file caption link in
  data !! "text" = Some caption /\
  (forall l, link = Some l -> l <> "" ->
     has_extension [".mp4"; ".mov"] (name file) ->
     data !! "media_type" = Some (PStr "VIDEO") /\
     data !! "video_url" = Some (PStr l) /\ data !! "image_url" = None) /\
  (forall l, link = Some l -> l <> "" ->
     ~ has_extension [".mp4"; ".mov"] (name file) ->
     data !! "media_type" = Some (PStr "IMAGE") /\
     data !! "image_url" = Some (PStr l) /\ data !! "video_url" = None) /\
  (link = None \/ link = Some "" ->
     data !! "media_type" = Some (PStr "TEXT_POST") /\
     dom data = {[ "access_token"; "text"; "media_type" ]}).
Proof.
  pose proof (endswith_spec (lower (name file)) [".mp4"; ".mov"]) as Hspec.
  fold (has_extension [".mp4"; ".mov"] (name file)) in Hspec.
  unfold post_data, media_type_of.
  destruct (endswith (lower (name file)) [".mp4"; ".mov"]);
    (destruct link as [l|]; cbn [truthy of_opt];
     [destruct (String.eqb_spec l "") as [->|Hl]|]); cbn.
  all: repeat match goal with |- _ /\ _ => split end; intros.
  all: repeat match goal with H : _ \/ _ |- _ => destruct H end.
  all: simplify_eq; try done.
  all: try (exfalso; apply Hspec in H1; done).
  all: try (exfalso; apply H1, Hspec; done).
  all: repeat match goal with |- _ /\ _ => split end.
  all: try (by simplify_map_eq).
  all: rewrite !dom_insert_L, dom_empty_L; set_solver.
Qed.

(** C7. The request [post_to_threads] sends, given the temporary link it
    fetched.  Once the link is fetched and the folder listed again, the
    request is made, whether there is a link or not, and its fields follow
    the rule: with a link and a name ending (in any case) in .mp4 or .mov
    it is a VIDEO with the link as video_url; with a link and any other
    name an IMAGE with the link as image_url; without a link (none, or
    empty) a TEXT_POST whose fields are the access token, the caption as
    text and the media type, whatever the extension.  Every request the
    call makes follows the rule. *)
Theorem post_to_threads_media_kind u dbx file caption w h res evs link :
  post_to_threads u dbx file caption w h = (res, evs) ->
  link_calls evs = [(path_lower file, Ok link)] ->
  (forall entries,
     listings evs = [Ok entries] ->
     exists data out,
       publish_calls u evs = [(data, out)] /\
       follows_media_rule file caption link data) /\
  (forall data out,
     publish_calls u evs = [(data, out)] ->
     follows_media_rule file caption link data).
Proof.
  exec; leaf; intros; simplify_eq.
  all: split; [intros entries ?; simplify_eq|intros data out ?; simplify_eq].
  all: try (eexists _, _; split; [reflexivity|]).
  all: apply post_data_kind.
Qed.

(** clip.mp4 without a temporary link is posted as a TEXT_POST. *)
Lemma post_to_threads_media_kind_witness :
  exists data out,
    publish_calls inkwisp
      (post_to_threads inkwisp sample_client clip_mp4 (PStr "hi")
         (world_of (with_link (Ok None) happy)) []).2 = [(data, out)] /\
    data !! "media_type" = Some (PStr "TEXT_POST") /\
    dom data = {[ "access_token"; "text"; "media_type" ]}.
Proof.
  destruct (post_to_threads_media_kind inkwisp sample_client clip_mp4
              (PStr "hi") (world_of (with_link (Ok None) happy)) []
              (Ok true) _ None eq_refl eq_refl) as [H _].
  destruct (H [clip_mp4; shot_png] eq_refl)
    as (data & out & Hcall & _ & _ & _ & Htext).
  exists data, out. split; [exact Hcall|]. apply Htext. by left.
Defined.


(** C3. A run whose first folder listing has no eligible file returns
    normally after exactly three notifications: the start of the run, "no
    files", the end of the run.  It makes no publish call, fetches no
    link, chooses no file and makes no delete call. *)
Theorem run_empty_folder u w h res evs entries :
  run u w h = (res, evs) ->
  head (listings evs) = Some (Ok entries) ->
  List.filter eligible entries = [] ->
  res = Ok tt /\
  (exists stamp d,
     notifications evs =
       [(INFO, "📡 Threads Run started at: " +:+ stamp);
        (INFO, "📭 No files found in Dropbox folder.");
        (INFO, "🏁 Run complete in " +:+ d +:+ " seconds")]) /\
  publish_calls u evs = [] /\
  delete_calls evs = [] /\
  link_calls evs = [] /\
  choices evs = [].
Proof.
  exec; leaf; cbn; intros; simplify_eq; try congruence.
  all: repeat split; eauto.
Qed.

(** A folder that holds only c.txt. *)
Lemma run_empty_folder_witness :
  delete_calls (run inkwisp (world_of (with_listing (Ok [c_txt]) happy)) []).2
  = [] /\
  publish_calls inkwisp
    (run inkwisp (world_of (with_listing (Ok [c_txt]) happy)) []).2 = [].
Proof.
  destruct (run inkwisp (world_of (with_listing (Ok [c_txt]) happy)) [])
    as [res evs] eqn:E.
  destruct (run_empty_folder _ _ _ _ _ [c_txt] E) as (_ & _ & H1 & H2 & _).
  - injection E as _ <-. reflexivity.
  - reflexivity.
  - split; [exact H2|exact H1].
Defined.

(** C1 (as the code has it). In a run that selected a file and whose
    publish request came back with a response, whatever its status,
    exactly one delete call is made, for the selected file; the file is
    one of the eligible entries of the first listing. *)
Theorem run_deletes_after_publish u w h res evs file data r :
  run u w h = (res, evs) ->
  choices evs = [Ok file] ->
  publish_calls u evs = [(data, Ok r)] ->
  delete_calls evs = [path_lower file] /\
  exists entries,
    head (listings evs) = Some (Ok entries) /\
    In file (List.filter eligible entries).
Proof.
  exec; leaf; cbn; intros; simplify_eq.
  all: split; [reflexivity|].
  all: eexists; split; [reflexivity|].
  all: match goal with
       | H : List.filter eligible _ = _ |- _ => rewrite H
       end.
  all: apply list_elem_of_In, list_elem_of_lookup; eauto.
Qed.

(** The platform rejects clip.mp4 with status 400; the file is deleted. *)
Lemma run_deletes_after_publish_witness :
  delete_calls
    (run inkwisp (world_of (with_publish (Ok rejected) happy)) []).2
  = ["/threads_2/clip.mp4"].
Proof.
  destruct (run inkwisp (world_of (with_publish (Ok rejected) happy)) [])
    as [res evs] eqn:E.
  destruct (run_deletes_after_publish _ _ _ _ _ clip_mp4
              (post_data inkwisp clip_mp4 (PStr "Start of the week")
                 (Some "https://dl.example/clip"))
              rejected E) as [H _].
  - injection E as _ <-. reflexivity.
  - injection E as _ <-. reflexivity.
  - exact H.
Defined.

(** C1, the claim as stated fails: a file is selected from a non-empty
    eligible list, the temporary-link fetch raises, and the run makes no
    delete call. *)
Lemma run_link_error_makes_no_delete :
  head (listings
          (run inkwisp (world_of (with_link (Raise (Exn "link error")) happy))
             []).2)
  = Some (Ok [clip_mp4; shot_png]) /\
  List.filter eligible [clip_mp4; shot_png] = [clip_mp4; shot_png] /\
  choices
    (run inkwisp (world_of (with_link (Raise (Exn "link error")) happy)) []).2
  = [Ok clip_mp4] /\
  delete_calls
    (run inkwisp (world_of (with_link (Raise (Exn "link error")) happy)) []).2
  = [].
Proof. repeat split; vm_compute; reflexivity. Qed.

(** C4 (as the code has it). When the token request raises, or comes back
    with a status from 400 to 599, the run returns normally after exactly
    three notifications: the start of the run, the crash with the text of
    the error, the end of the run.  It opens no Dropbox session and makes
    no list, publish or delete call. *)
Theorem run_refresh_failure u w h res evs data out e :
  run u w h = (res, evs) ->
  token_calls evs = [(data, out)] ->
  (out = Raise e \/
   exists r, out = Ok r /\ (400 <= status_code r < 600)%Z
             /\ e = Exn (http_error_msg r)) ->
  res = Ok tt /\
  (exists stamp d,
     notifications evs =
       [(INFO, "📡 Threads Run started at: " +:+ stamp);
        (ERROR, "❌ Script crashed: " +:+ exn_text e);
        (INFO, "🏁 Run complete in " +:+ d +:+ " seconds")]) /\
  sessions evs = [] /\
  listings evs = [] /\
  publish_calls u evs = [] /\
  delete_calls evs = [].
Proof.
  exec; leaf; cbn; intros ? Hout; simplify_eq.
  all: destruct Hout as [?|(? & ? & ? & ?)]; simplify_eq.
  all: rewrite ?andb_false_iff, ?Z.leb_gt, ?Z.ltb_ge in *; try lia.
  all: repeat split; eauto.
Qed.

(** The token endpoint answers 401. *)
Lemma run_refresh_failure_witness :
  notifications
    (run inkwisp (world_of (with_token (Ok token_denied) happy)) []).2
  = [(INFO, "📡 Threads Run started at: 2024-05-06 09:00:00");
     (ERROR, "❌ Script crashed: HTTP error for url");
     (INFO, "🏁 Run complete in 2.5 seconds")] /\
  listings
    (run inkwisp (world_of (with_token (Ok token_denied) happy)) []).2 = [].
Proof.
  destruct (run inkwisp (world_of (with_token (Ok token_denied) happy)) [])
    as [res evs] eqn:E.
  destruct (run_refresh_failure _ _ _ _ _ (refresh_data inkwisp)
              (Ok token_denied) (Exn "HTTP error for url") E)
    as (_ & _ & _ & H & _).
  - injection E as _ <-. reflexivity.
  - right. exists token_denied. repeat split; cbn; lia.
  - split; [|exact H]. injection E as _ <-. reflexivity.
Defined.

(** C4, the claim as stated fails: the token response has status 304, which
    is not a 2xx status, yet the run is not a crash: it lists the folder,
    publishes and deletes. *)
Lemma run_token_304_is_no_crash :
  List.map snd
    (token_calls
       (run inkwisp (world_of (with_token (Ok token_not_modified) happy)) []).2)
  = [Ok token_not_modified] /\
  status_code token_not_modified = 304%Z /\
  List.filter is_crash
    (notifications
       (run inkwisp (world_of (with_token (Ok token_not_modified) happy)) []).2)
  = [] /\
  listings
    (run inkwisp (world_of (with_token (Ok token_not_modified) happy)) []).2
  = [Ok [clip_mp4; shot_png]; Ok [clip_mp4; shot_png]] /\
  delete_calls
    (run inkwisp (world_of (with_token (Ok token_not_modified) happy)) []).2
  = ["/threads_2/clip.mp4"].
Proof. repeat split; vm_compute; reflexivity. Qed.

(** C2, the claim as stated fails: the post request raises a network error
    and [post_to_threads] raises it instead of returning a failed result. *)
Lemma post_to_threads_raises_network_error :
  (post_to_threads inkwisp sample_client clip_mp4 (PStr "hi")
     (world_of (with_publish (Raise (Exn "connection reset")) happy)) []).1
  = Raise (Exn "connection reset").
Proof. vm_compute. reflexivity. Qed.

(** ** Further properties of the methods *)

(** Of two suffixes of one string the shorter is a suffix of the longer. *)
Lemma suffix_comparable (a b x y : string) :
  a +:+ x = b +:+ y -> (String.length y <= String.length x)%nat ->
  exists c, x = c +:+ y.
Proof.
  revert b. induction a as [|ca a IH]; intros b H Hlen.
  - exists b. exact H.
  - destruct b as [|cb b].
    + apply (f_equal String.length) in H.
      change (S (String.length (a +:+ x)) = String.length y) in H.
      rewrite length_append in H. lia.
    + apply (IH b); [|exact Hlen].
      change (String ca (a +:+ x) = String cb (b +:+ y)) in H. congruence.
Qed.

Lemma suffixes_exclusive (s x y : string) :
  endswith1 x y = false -> endswith1 y x = false ->
  endswith1 s x = true -> endswith1 s y = true -> False.
Proof.
  intros Hxy Hyx [a Ha]%endswith1_spec [b Hb]%endswith1_spec.
  rewrite Ha in Hb.
  destruct (Nat.le_gt_cases (String.length y) (String.length x)).
  - destruct (suffix_comparable a b x y) as [c Hc]; [done..|].
    assert (endswith1 x y = true) by (apply endswith1_spec; eauto).
    congruence.
  - destruct (suffix_comparable b a y x) as [c Hc]; [done|lia|].
    assert (endswith1 y x = true) by (apply endswith1_spec; eauto).
    congruence.
Qed.

(** X1. On an eligible file the media type follows the extension: VIDEO
    exactly for .mp4 and .mov, IMAGE exactly for .jpg, .jpeg and .png. *)
Theorem eligible_media_type f :
  eligible f = true ->
  (media_type_of f = "VIDEO" <-> has_extension [".mp4"; ".mov"] (name f)) /\
  (media_type_of f = "IMAGE" <->
     has_extension [".jpg"; ".jpeg"; ".png"] (name f)).
Proof.
  unfold eligible, media_type_of, has_extension. intros Hel.
  rewrite <- !endswith_spec.
  set (s := lower (name f)) in *.
  assert (endswith s [".mp4"; ".mov"] = true ->
          endswith s [".jpg"; ".jpeg"; ".png"] = true -> False) as Hex.
  { unfold endswith. cbn [existsb]. rewrite !orb_false_r, !orb_true_iff.
    intros [Hv|Hv] [Hi|[Hi|Hi]];
      by eapply suffixes_exclusive; [..|exact Hv|exact Hi]. }
  assert (endswith s [".mp4"; ".mov"] || endswith s [".jpg"; ".jpeg"; ".png"]
          = true) as Hor.
  { revert Hel. unfold endswith, valid_exts. cbn [existsb].
    by rewrite !orb_false_r, <- !orb_assoc. }
  destruct (endswith s [".mp4"; ".mov"]) eqn:Hv;
    destruct (endswith s [".jpg"; ".jpeg"; ".png"]) eqn:Hi;
    try done; by exfalso; apply Hex.
Qed.

Lemma eligible_media_type_witness :
  media_type_of shot_png = "IMAGE".
Proof.
  apply (eligible_media_type shot_png); [reflexivity|].
  exists "shot", ".png". split; [cbn; tauto|reflexivity].
Defined.

Local Transparent get_caption_from_config.

(** X2. The fallback of caption resolution is silent when a key is
    missing; the warning is logged only when something raised.  A schedule
    that is a dictionary without the account logs nothing; a schedule that
    cannot be loaded logs the error; an account entry that is not a
    dictionary logs the failed attribute lookup.  The default caption is
    returned in all three cases. *)
Theorem get_caption_from_config_warning u w h :
  let out := get_caption_from_config u w h in
  (forall table,
     json_load w h (schedule_file u) = Ok (PDict table) ->
     table !! account_name u = None ->
     out.1 = Ok (PStr (default_caption u)) /\ logged out.2 = []) /\
  (forall e,
     json_load w h (schedule_file u) = Raise e ->
     out.1 = Ok (PStr (default_caption u)) /\
     logged out.2 =
       [(WARNING, "Could not load caption from config: " +:+ exn_text e)]) /\
  (forall table v,
     json_load w h (schedule_file u) = Ok (PDict table) ->
     table !! account_name u = Some v ->
     (forall days, v <> PDict days) ->
     out.1 = Ok (PStr (default_caption u)) /\
     logged out.2 =
       [(WARNING, "Could not load caption from config: '" +:+ type_name v
                  +:+ "' object has no attribute 'get'")]).
Proof.
  unfold get_caption_from_config, try_except, bind, call, peek, account_key.
  cbn zeta.
  split; [|split];
    [intros table Hload Hkey|intros e Hload|intros table v Hload Hkey Hv];
    rewrite Hload; cbn; rewrite ?Hkey; cbn; rewrite ?lookup_empty; try done.
  destruct v; try done. by destruct (Hv m).
Qed.

Local Opaque get_caption_from_config.

(** A schedule file that holds the empty object. *)
Lemma get_caption_from_config_warning_witness :
  (get_caption_from_config inkwisp
     (world_of (with_schedule (Ok (PDict ∅)) happy)) []).1
  = Ok (PStr "✨ #inkwisp ✨") /\
  logged (get_caption_from_config inkwisp
            (world_of (with_schedule (Ok (PDict ∅)) happy)) []).2 = [].
Proof.
  destruct (get_caption_from_config_warning inkwisp
              (world_of (with_schedule (Ok (PDict ∅)) happy)) [])
    as (H & _ & _).
  exact (H ∅ eq_refl eq_refl).
Defined.

(** X3. Whenever [authenticate_dropbox] returns a session, it made one
    token request, with the refresh-token grant and the account's
    credentials; the response had no 4xx or 5xx status and a JSON object as
    body, and the session was opened with the "access_token" field of that
    object ([None] when the field is absent). *)
Theorem authenticate_dropbox_session u w h dbx evs :
  authenticate_dropbox u w h = (Ok dbx, evs) ->
  exists r body,
    token_calls evs = [(refresh_data u, Ok r)] /\
    refresh_data u !! "grant_type" = Some (PStr "refresh_token") /\
    refresh_data u !! "refresh_token" = Some (of_opt (dropbox_refresh_token u)) /\
    ~ (400 <= status_code r < 600)%Z /\
    json_body r = Ok (PDict body) /\
    oauth2_access_token dbx = default PNone (body !! "access_token") /\
    sessions evs = [oauth2_access_token dbx].
Proof.
  exec; intros [= <- <-]; cbn.
  rewrite andb_false_iff, Z.leb_gt, Z.ltb_ge in *.
  eexists _, _.
  repeat split; try done; try lia.
Qed.

(** The token endpoint grants a token. *)
Lemma authenticate_dropbox_session_witness :
  sessions (authenticate_dropbox inkwisp (world_of happy) []).2
  = [PStr "sl.token"].
Proof.
  destruct (authenticate_dropbox inkwisp (world_of happy) [])
    as [[dbx|e] evs] eqn:E; [|discriminate E].
  destruct (authenticate_dropbox_session _ _ _ _ _ E)
    as (r & body & _ & _ & _ & _ & _ & _ & H).
  cbn [snd]. rewrite H. injection E as <- _. reflexivity.
Defined.

(** ** Further properties of [run] *)

Lemma delete_outcomes_skeleton t :
  delete_outcomes (skeleton t) = delete_outcomes t.
Proof. apply omap_skeleton. by intros []. Qed.

Lemma session_outcomes_skeleton t :
  session_outcomes (skeleton t) = session_outcomes t.
Proof. apply omap_skeleton. by intros []. Qed.

Lemma spine_skeleton t s : spine t s -> skeleton t = s.
Proof.
  induction 1 as [|eff Hq|ev t s Hev _ IH|t1 t2 s1 s2 _ IH1 _ IH2].
  - reflexivity.
  - apply omap_quiet; [by intros []|exact Hq].
  - change (ev :: t) with ([ev] ++ t). unfold skeleton in *.
    rewrite omap_app, Hev, IH. reflexivity.
  - unfold skeleton in *. by rewrite omap_app, IH1, IH2.
Qed.

Ltac find_spine :=
  lazymatch goal with
  | |- spine [] _ => apply spine_nil
  | |- spine (_ :: _) _ => apply spine_keep; [reflexivity|find_spine]
  | |- spine (_ ++ _) _ => apply spine_app; find_spine
  | |- spine _ _ => apply spine_quiet; assumption
  end.

(** At the end of a path the goal is [(r, T) = (res, evs) -> P evs] with
    [P] reading [evs] through the projections. *)
Ltac path_end :=
  let E := fresh "E" in
  intros [= <- E];
  match type of E with
  | ?T = ?evs =>
      let S := fresh "S" in
      eassert (skeleton T = _) as S by (apply spine_skeleton; find_spine);
      rewrite E in S; clear E; cbn [app] in S;
      try rewrite <- (notifications_skeleton evs);
      try rewrite <- (sessions_skeleton evs);
      try rewrite <- (session_outcomes_skeleton evs);
      try rewrite <- (listings_skeleton evs);
      try rewrite <- (link_calls_skeleton evs);
      try rewrite <- (delete_calls_skeleton evs);
      try rewrite <- (delete_outcomes_skeleton evs);
      try rewrite <- (choices_skeleton evs);
      unfold publish_calls, token_calls;
      repeat match goal with
             | |- context [http_calls ?url evs] =>
                 rewrite <- (http_calls_skeleton url evs)
             end;
      rewrite S; clear S
  end;
  unfold delete_outcomes, session_outcomes; read_skeleton.

(** X4. The notifications of a run that got a response to its publish
    request and made its delete call: the start of the run, the upload
    with the media type and the number of eligible files of the second
    listing, the success (status 200) or the failure with the response body
    (any other status), the deletion or, when the delete call raised, a
    warning with the error, and the end of the run.  A failed deletion is
    no crash: the run returns normally. *)
Theorem run_notifications_after_publish u w h res evs file data r path out :
  run u w h = (res, evs) ->
  choices evs = [Ok file] ->
  publish_calls u evs = [(data, Ok r)] ->
  delete_outcomes evs = [(path, out)] ->
  res = Ok tt /\
  exists stamp entries again d,
    listings evs = [Ok entries; Ok again] /\
    notifications evs =
      [(INFO, "📡 Threads Run started at: " +:+ stamp);
       (INFO, "🚀 Uploading to Threads: " +:+ name file +:+ nl +:+
              "📐 Type: " +:+ media_type_of file +:+ nl +:+
              "📦 Remaining: " +:+ pretty (length (List.filter eligible again)));
       (if (status_code r =? 200)%Z
        then (INFO, "✅ Successfully posted to Threads: " +:+ name file)
        else (ERROR, "❌ Threads post failed: " +:+ name file +:+ nl +:+ text r));
       match out with
       | Ok _ => (INFO, "🗑️ Deleted file after attempt: " +:+ name file)
       | Raise e => (WARNING, "⚠️ Failed to delete file " +:+ name file +:+
                              ": " +:+ exn_text e)
       end;
       (INFO, "🏁 Run complete in " +:+ d +:+ " seconds")].
Proof.
  exec; path_end; cbn; intros; simplify_eq; try congruence.
  all: split; [reflexivity|]; eexists _, _, _, _; split; [reflexivity|].
  all: reflexivity.
Qed.

(** The delete call raises after a successful post. *)
Lemma run_notifications_after_publish_witness :
  exists stamp entries again d,
    listings
      (run inkwisp (world_of (with_delete (Raise (Exn "not found")) happy))
         []).2 = [Ok entries; Ok again] /\
    notifications
      (run inkwisp (world_of (with_delete (Raise (Exn "not found")) happy))
         []).2
    = [(INFO, "📡 Threads Run started at: " +:+ stamp);
       (INFO, "🚀 Uploading to Threads: clip.mp4" +:+ nl +:+
              "📐 Type: VIDEO" +:+ nl +:+
              "📦 Remaining: " +:+ pretty (length (List.filter eligible again)));
       (INFO, "✅ Successfully posted to Threads: clip.mp4");
       (WARNING, "⚠️ Failed to delete file clip.mp4: not found");
       (INFO, "🏁 Run complete in " +:+ d +:+ " seconds")].
Proof.
  apply (run_notifications_after_publish inkwisp
           (world_of (with_delete (Raise (Exn "not found")) happy)) []
           (Ok tt) _ clip_mp4
           (post_data inkwisp clip_mp4 (PStr "Start of the week")
              (Some "https://dl.example/clip"))
           published "/threads_2/clip.mp4" (Raise (Exn "not found")));
    reflexivity.
Defined.

(** X5. A run acts on one file only.  Every temporary-link fetch and
    every delete call of a run is for the path of the file that
    [random.choice] returned, and that file is an eligible entry of the
    first listing; a run that selected no file fetches no link, publishes
    nothing and deletes nothing. *)
Theorem run_acts_on_selected_file u w h res evs :
  run u w h = (res, evs) ->
  (forall file,
     choices evs = [Ok file] ->
     (exists entries, head (listings evs) = Some (Ok entries)
                      /\ In file (List.filter eligible entries)) /\
     (forall path out, In (path, out) (link_calls evs) ->
                       path = path_lower file) /\
     (forall path, In path (delete_calls evs) -> path = path_lower file)) /\
  ((forall file, choices evs <> [Ok file]) ->
     link_calls evs = [] /\ publish_calls u evs = [] /\ delete_calls evs = []).
Proof.
  exec; path_end; cbn.
  all: split; [intros file ?; simplify_eq|intros Hno; try done].
  all: try (by destruct (Hno _ eq_refl)).
  all: split;
    [eexists; split; [reflexivity|];
     match goal with
     | H : List.filter eligible _ = _ |- _ => rewrite H
     end; apply list_elem_of_In, list_elem_of_lookup; eauto|].
  all: split; intros; repeat destruct_or?; simplify_eq; done.
Qed.

(** The sample run selects clip.mp4 and deletes it. *)
Lemma run_acts_on_selected_file_witness :
  Forall (fun path => path = "/threads_2/clip.mp4")
    (delete_calls (run inkwisp (world_of happy) []).2).
Proof.
  destruct (run_acts_on_selected_file inkwisp (world_of happy) []
              (Ok tt) _ eq_refl) as [H _].
  apply List.Forall_forall. exact (proj2 (proj2 (H clip_mp4 eq_refl))).
Defined.

(** X6. The remote calls of one run: exactly one token request, at most
    one session, at most two folder listings, at most one choice, one
    link fetch, one publish request and one delete call. *)
Theorem run_call_budget u w h res evs :
  run u w h = (res, evs) ->
  length (token_calls evs) = 1%nat /\
  (length (sessions evs) <= 1)%nat /\
  (length (listings evs) <= 2)%nat /\
  (length (choices evs) <= 1)%nat /\
  (length (link_calls evs) <= 1)%nat /\
  (length (publish_calls u evs) <= 1)%nat /\
  (length (delete_calls evs) <= 1)%nat.
Proof.
  exec; path_end; cbn; lia.
Qed.

Lemma run_call_budget_witness :
  length (token_calls (run inkwisp (world_of happy) []).2) = 1%nat.
Proof.
  exact (proj1 (run_call_budget inkwisp (world_of happy) [] (Ok tt) _ eq_refl)).
Defined.

(** X7. Errors before the selection are fatal to the run and to nothing
    else: when the [dropbox.Dropbox] constructor or the first folder
    listing raises, the run returns normally after the start, crash and
    end notifications, the crash carrying the text of the error, and it
    chooses, publishes and deletes nothing. *)
Theorem run_crash_before_selection u w h res evs e :
  run u w h = (res, evs) ->
  ((exists token, session_outcomes evs = [(token, Raise e)]) \/
   head (listings evs) = Some (Raise e)) ->
  res = Ok tt /\
  (exists stamp d,
     notifications evs =
       [(INFO, "📡 Threads Run started at: " +:+ stamp);
        (ERROR, "❌ Script crashed: " +:+ exn_text e);
        (INFO, "🏁 Run complete in " +:+ d +:+ " seconds")]) /\
  choices evs = [] /\
  link_calls evs = [] /\
  publish_calls u evs = [] /\
  delete_calls evs = [].
Proof.
  exec; path_end; cbn; intros [[? ?]|?]; simplify_eq.
  all: repeat split; eauto.
Qed.

(** The folder cannot be listed. *)
Lemma run_crash_before_selection_witness :
  delete_calls
    (run inkwisp
       (world_of (with_listing (Raise (Exn "path/not_found")) happy)) []).2
  = [].
Proof.
  apply (run_crash_before_selection inkwisp
           (world_of (with_listing (Raise (Exn "path/not_found")) happy)) []
           (Ok tt) _ (Exn "path/not_found") eq_refl).
  right. reflexivity.
Defined.

(** X8. After the selection an error of the publish step is fatal too:
    when the temporary-link fetch, the second listing or the publish
    request raises, the run notifies a crash with the text of the error and
    then the end of the run, and the selected file is not deleted. *)
Theorem run_crash_after_selection u w h res evs file e :
  run u w h = (res, evs) ->
  choices evs = [Ok file] ->
  (link_calls evs = [(path_lower file, Raise e)] \/
   (exists entries, listings evs = [Ok entries; Raise e]) \/
   (exists data, publish_calls u evs = [(data, Raise e)])) ->
  res = Ok tt /\
  delete_calls evs = [] /\
  exists earlier d,
    notifications evs =
      earlier ++ [(ERROR, "❌ Script crashed: " +:+ exn_text e);
                  (INFO, "🏁 Run complete in " +:+ d +:+ " seconds")].
Proof.
  exec; path_end; cbn; intros ? Hraise; simplify_eq.
  all: destruct Hraise as [?|[[? ?]|[? ?]]]; simplify_eq.
  all: split; [reflexivity|]; split; [reflexivity|].
  all: first [by eexists [_], _|by eexists [_; _], _].
Qed.

(** The publish request meets a network error. *)
Lemma run_crash_after_selection_witness :
  delete_calls
    (run inkwisp
       (world_of (with_publish (Raise (Exn "connection reset")) happy)) []).2
  = [].
Proof.
  apply (run_crash_after_selection inkwisp
           (world_of (with_publish (Raise (Exn "connection reset")) happy)) []
           (Ok tt) _ clip_mp4 (Exn "connection reset") eq_refl eq_refl).
  right. right.
  exists (post_data inkwisp clip_mp4 (PStr "Start of the week")
            (Some "https://dl.example/clip")).
  reflexivity.
Defined.

(** X9. What a run publishes is built from the file it selected and the
    caption it resolved: the form data of the publish request is
    [post_data] of the selected file, of the caption
    [get_caption_from_config] returned after the first notification of the
    run, and of the temporary link that was fetched, once, for the path of
    that file; the request carries that caption as text and the account's
    access token. *)
Theorem run_publishes_selected_file u w h res evs data out :
  run u w h = (res, evs) ->
  publish_calls u evs = [(data, out)] ->
  exists file link caption,
    choices evs = [Ok file] /\
    link_calls evs = [(path_lower file, Ok link)] /\
    run_caption u w h = Ok caption /\
    data = post_data u file caption link /\
    data !! "text" = Some caption /\
    data !! "access_token" = Some (of_opt (threads_access_token u)).
Proof.
  unfold run_caption, run. unfold bind at 1. unfold peek at 1.
  cbn beta iota. rewrite app_nil_r.
  exec; path_end; cbn; intros; simplify_eq.
  all: eexists _, _, _; repeat split; try reflexivity.
  all: unfold post_data; repeat case_match; by simplify_map_eq.
Qed.

Lemma run_publishes_selected_file_witness :
  exists file link caption,
    choices (run inkwisp (world_of happy) []).2 = [Ok file] /\
    link_calls (run inkwisp (world_of happy) []).2
      = [(path_lower file, Ok link)] /\
    run_caption inkwisp (world_of happy) [] = Ok caption /\
    post_data inkwisp clip_mp4 (PStr "Start of the week")
      (Some "https://dl.example/clip") = post_data inkwisp file caption link /\
    post_data inkwisp clip_mp4 (PStr "Start of the week")
      (Some "https://dl.example/clip") !! "text" = Some caption /\
    post_data inkwisp clip_mp4 (PStr "Start of the week")
      (Some "https://dl.example/clip") !! "access_token"
      = Some (of_opt (threads_access_token inkwisp)).
Proof.
  apply (run_publishes_selected_file inkwisp (world_of happy) [] (Ok tt) _
           _ (Ok published)); reflexivity.
Defined.

(** ** Without a bot *)

Lemma send_message_without_bot u msg lvl w h :
  telegram_bot u = None ->
  send_message u msg lvl w h =
    (Ok tt,
     [SendMessage lvl msg;
      LogRecord WARNING
        "Telegram bot is not configured. Message not sent to Telegram.";
      LogRecord lvl (full_msg u msg)]).
Proof. intros H. rewrite send_message_cases, H. reflexivity. Qed.

Local Transparent get_caption_from_config.

Lemma get_caption_from_config_local u w h :
  exists v eff,
    get_caption_from_config u w h = (Ok v, eff) /\ delivered eff = []
    /\ notifications eff = [].
Proof.
  unfold get_caption_from_config, try_except, bind, call, peek, py_get,
    ret, raise, logger_log, emit.
  repeat (cbn; rewrite ?lookup_empty;
          match goal with
          | |- context [match ?x with _ => _ end] =>
              lazymatch x with
              | context [match _ with _ => _ end] => fail
              | _ => destruct x
              end
          end).
  all: cbn; rewrite ?lookup_empty; cbn; eexists _, _; done.
Qed.

Local Opaque get_caption_from_config.

Ltac exec_step_local Hbot :=
  match goal with
  | |- context [send_message ?u ?m ?l ?w ?h] =>
      rewrite (send_message_without_bot u m l w h Hbot)
  | |- context [get_caption_from_config ?u ?w ?h] =>
      let v := fresh "caption" in
      let eff := fresh "eff" in
      let D := fresh "D" in
      let N := fresh "N" in
      destruct (get_caption_from_config_local u w h) as (v & eff & -> & D & N)
  | |- context [match ?x with _ => _ end] =>
      lazymatch x with
      | context [match _ with _ => _ end] => fail
      | _ => destruct x eqn:?
      end
  end; cbn.

Ltac exec_local Hbot :=
  unfold run, post_to_threads, authenticate_dropbox, dropbox_Dropbox,
    refresh_dropbox_token, list_dropbox_files, random_choice,
    requests_post_call, raise_for_status, response_json, py_get,
    bind, try_except, try_finally, call, peek, ret, raise;
  cbn; repeat exec_step_local Hbot.

Ltac find_in :=
  lazymatch goal with
  | |- In _ (_ ++ _) => apply in_or_app; first [left; find_in|right; find_in]
  | |- In _ (_ :: _) => first [left; reflexivity|right; find_in]
  end.

(** X10. Without a bot nothing is lost and nothing is sent: a run of an
    uploader that has no Telegram bot makes no Telegram call, and every
    message it notifies is written to the local log at its level, prefixed
    with the account name and the script name. *)
Theorem run_without_bot u w h res evs :
  telegram_bot u = None ->
  run u w h = (res, evs) ->
  delivered evs = [] /\
  Forall (fun n => In (n.1, full_msg u n.2) (logged evs)) (notifications evs).
Proof.
  intros Hbot. exec_local Hbot; intros [= <- <-].
  all: unfold delivered, notifications, logged in *.
  all: rewrite ?omap_app; cbn [omap list_omap app];
    rewrite ?omap_app, ?D, ?N; cbn [omap list_omap app].
  all: split; [reflexivity|].
  all: repeat (constructor; [cbn [fst snd]; find_in|]); constructor.
Qed.

Lemma run_without_bot_witness :
  delivered (run inkwisp (world_of happy) []).2 = [].
Proof.
  exact (proj1 (run_without_bot inkwisp (world_of happy) [] (Ok tt) _
                  eq_refl eq_refl)).
Defined.

(** ** The driver *)

(** Every run returns normally, with one token request and one "run
    complete" notification. *)
Lemma run_summary u w h res evs :
  run u w h = (res, evs) ->
  res = Ok tt /\
  length (List.filter is_run_complete (notifications evs)) = 1%nat /\
  length (token_calls evs) = 1%nat.
Proof. exec; path_end; repeat split; reflexivity. Qed.

Lemma run_accounts_summary p accounts w h :
  (forall a, In a accounts -> exists u, init p a = Ok u) ->
  exists evs,
    run_accounts p accounts w h = (Ok tt, evs) /\
    length (List.filter is_run_complete (notifications evs)) = length accounts /\
    length (token_calls evs) = length accounts.
Proof.
  revert h. induction accounts as [|a rest IH]; intros h Hinit.
  - by exists [].
  - destruct (Hinit a) as [u Hu]; [by left|].
    cbn [run_accounts]. rewrite Hu. unfold bind.
    destruct (run u w h) as [res t1] eqn:E.
    destruct (run_summary _ _ _ _ _ E) as (-> & Hn & Ht).
    destruct (IH (h ++ t1)) as (t2 & -> & Hn2 & Ht2).
    { intros b Hb. apply Hinit. by right. }
    exists (t1 ++ t2). split; [reflexivity|].
    unfold token_calls, http_calls, notifications in *.
    rewrite !omap_app, List.filter_app, !length_app. cbn [length]. lia.
Qed.

(** X11. The driver runs every account, whatever happens in the runs: when
    no bot token is configured in the environment, or the [telegram.Bot]
    constructor accepts the one that is, [main] returns normally after
    three runs, each with its token request and its "run complete"
    notification; a crash of one account stops none of the later ones. *)
Theorem main_runs_every_account p w h :
  (forall token, getenv p "TELEGRAM_BOT_TOKEN" = Some token ->
                 exists ok, telegram_Bot p token = Ok ok) ->
  exists evs,
    main p w h = (Ok tt, evs) /\
    length (List.filter is_run_complete (notifications evs)) = 3%nat /\
    length (token_calls evs) = 3%nat.
Proof.
  intros Hbot. apply (run_accounts_summary p (ACCOUNTS p)).
  intros a Ha. unfold init.
  assert (arg_telegram_bot_token a = None) as ->.
  { cbn in Ha. by repeat destruct Ha as [<-|Ha]. }
  unfold py_or at 1. cbn [truthy].
  destruct (getenv p "TELEGRAM_BOT_TOKEN") as [token|] eqn:Henv; [|eauto].
  destruct (Hbot token eq_refl) as [ok ->]. eauto.
Qed.

(** No bot token in the environment, and a token endpoint that rejects
    every account: three runs all the same. *)
Lemma main_runs_every_account_witness :
  exists evs,
    main sample_platform (world_of (with_token (Ok token_denied) happy)) []
    = (Ok tt, evs) /\
    length (List.filter is_run_complete (notifications evs)) = 3%nat /\
    length (token_calls evs) = 3%nat.
Proof.
  apply (main_runs_every_account sample_platform
           (world_of (with_token (Ok token_denied) happy)) []).
  intros token Henv. discriminate Henv.
Defined.

(** X12. Construction is not guarded: when a bot token is set in the
    environment and the [telegram.Bot] constructor raises on it, [main]
    raises that error while constructing the first uploader; no account
    runs and no call is made. *)
Theorem main_stops_when_bot_refused p w h token e :
  getenv p "TELEGRAM_BOT_TOKEN" = Some token ->
  telegram_Bot p token = Raise e ->
  main p w h = (Raise e, []).
Proof.
  intros Henv Hbot. unfold main, ACCOUNTS. cbn [run_accounts].
  unfold init, account_of. cbn [arg_telegram_bot_token].
  unfold py_or at 1. cbn [truthy]. rewrite Henv, Hbot. reflexivity.
Qed.

Lemma main_stops_when_bot_refused_witness :
  main refusing_platform (world_of happy) [] = (Raise (Exn "Invalid token"), []).
Proof.
  apply (main_stops_when_bot_refused refusing_platform (world_of happy) []
           "bad token"); reflexivity.
Defined.
